(** * The simple question-answering agent

    A shallow embedding of the notebook
    [all_agents_tutorials/simple_question_answering_agent.ipynb]:
    the environment setup, the [ChatOpenAI] client object, the prompt
    template, the chain [prompt | llm] and [get_answer].

    Python values are modelled as the notebook uses them: strings, the
    dictionary of input variables as a [gmap], objects as dictionaries of
    attributes, exceptions by class name.  The remote completion service is
    an opaque capability, a function from the request sent to what comes
    back (a response object or a raised exception); every request sent is
    recorded in the world so that calls can be counted. *)

From Stdlib Require Import String Ascii ZArith List Lia.
From stdpp Require Import base option strings gmap list pretty.

Local Open Scope string_scope.
Local Open Scope Z_scope.

(** ** Python values and exceptions *)

(** The values an attribute of a response object may hold. *)
Inductive pyval : Type :=
  | PyNone
  | PyStr (s : string)
  | PyInt (z : Z).

(** A raised exception: its class and its message. *)
Record exn : Type := Exn { exn_class : string; exn_msg : string }.

Definition TypeError (msg : string) : exn := Exn "TypeError" msg.
Definition KeyError (msg : string) : exn := Exn "KeyError" msg.
Definition ValueError (msg : string) : exn := Exn "ValueError" msg.
Definition AttributeError (msg : string) : exn := Exn "AttributeError" msg.

(** What a statement produces: a value, or a raised exception. *)
Inductive result (A : Type) : Type :=
  | Ok (a : A)
  | Raise (e : exn).
Arguments Ok {A} a.
Arguments Raise {A} e.

(** ** The world outside the interpreter *)

(** One outbound completion request, as the client object sends it. *)
Record request : Type := Request {
  req_model : string;
  req_max_tokens : Z;
  req_temperature : Z;
  req_api_key : option string;
  req_prompt : string
}.

(** What the remote call gives back: a response object (its attributes), or
    an exception raised by the client (transport fault, service error). *)
Inductive outcome : Type :=
  | Returns (attrs : gmap string pyval)
  | Raises (e : exn).

(** The process environment and the log of requests sent so far. *)
Record world : Type := World {
  environ : gmap string string;
  outbound : list request
}.

(** ** Statements: state passing with exceptions *)

Definition M (A : Type) : Type := world -> result A * world.

Definition ret {A} (a : A) : M A := fun w => (Ok a, w).
Definition raise {A} (e : exn) : M A := fun w => (Raise e, w).
Definition bind {A B} (c : M A) (k : A -> M B) : M B :=
  fun w => match c w with
           | (Ok a, w') => k a w'
           | (Raise e, w') => (Raise e, w')
           end.

Notation "'let*' x ':=' c 'in' k" := (bind c (fun x => k))
  (at level 10, x name, c at level 100, k at level 200).

Definition lift {A} (r : result A) : M A := fun w => (r, w).

(** ** Format strings

    [PromptTemplate] renders an f-string template with Python's
    [str.format] machinery: the template is scanned once, [{{] and [}}]
    stand for a literal brace, [{name}] is replaced by the keyword argument
    [name], and the substituted text is not scanned again.  Conversions,
    format specifications, attribute and index access inside a field
    ([!], [:], [.], [[]) are not modelled and rejected here; the notebook's
    template has none. *)

Definition is_field_special (c : ascii) : bool :=
  match c with
  | "{"%char | "!"%char | ":"%char | "."%char | "["%char => true
  | _ => false
  end.

Definition snoc (s : string) (c : ascii) : string :=
  String.append s (String c EmptyString).

Definition map_result {A B} (f : A -> B) (r : result A) : result B :=
  match r with
  | Ok a => Ok (f a)
  | Raise e => Raise e
  end.

Definition IndexError (msg : string) : exn := Exn "IndexError" msg.

(** The value of the replacement field [name]: a keyword argument.  An
    empty name asks for the next positional argument, and there is none. *)
Definition get_field (kw : gmap string string) (name : string) : result string :=
  match name with
  | EmptyString =>
      Raise (IndexError "Replacement index 0 out of range for positional args tuple")
  | _ =>
      match kw !! name with
      | Some v => Ok v
      | None => Raise (KeyError name)
      end
  end.

(** [vformat kw s field]: [field = None] while scanning literal text,
    [field = Some name] inside a replacement field whose name read so far is
    [name]. *)
Fixpoint vformat (kw : gmap string string) (s : string) (field : option string)
  : result string :=
  match s with
  | EmptyString =>
      match field with
      | None => Ok EmptyString
      | Some _ => Raise (ValueError "expected '}' before end of string")
      end
  | String c r =>
      match field with
      | None =>
          if Ascii.eqb c "{" then
            match r with
            | EmptyString =>
                Raise (ValueError "Single '{' encountered in format string")
            | String c' r' =>
                if Ascii.eqb c' "{"
                then map_result (String "{") (vformat kw r' None)
                else vformat kw r (Some EmptyString)
            end
          else if Ascii.eqb c "}" then
            match r with
            | EmptyString =>
                Raise (ValueError "Single '}' encountered in format string")
            | String c' r' =>
                if Ascii.eqb c' "}"
                then map_result (String "}") (vformat kw r' None)
                else Raise (ValueError "Single '}' encountered in format string")
            end
          else map_result (String c) (vformat kw r None)
      | Some name =>
          if Ascii.eqb c "}" then
            match get_field kw name with
            | Ok v => map_result (String.append v) (vformat kw r None)
            | Raise e => Raise e
            end
          else if is_field_special c
          then Raise (ValueError "unsupported replacement field")
          else vformat kw r (Some (snoc name c))
      end
  end.

(** ** The prompt template (cell 3) *)

Record PromptTemplate : Type := {
  pt_template : string;
  input_variables : list string
}.

Definition nl : string := String (ascii_of_nat 10) EmptyString.

Definition template : string :=
  String.concat EmptyString
    [ nl;
      "You are a helpful AI assistant. Your task is to answer the user's question to the best of your ability."; nl;
      nl;
      "User's question: {question}"; nl;
      nl;
      "Please provide a clear and concise answer:"; nl ].

Definition prompt : PromptTemplate :=
  {| pt_template := template; input_variables := ["question"] |}.

(** [p.format( **kwargs )] *)
Definition format (p : PromptTemplate) (kwargs : gmap string string)
  : result string :=
  vformat kwargs (pt_template p) None.

(** The input variables absent from the dictionary handed to [invoke]. *)
Definition missing (p : PromptTemplate) (input : gmap string string)
  : list string :=
  List.filter (fun v => bool_decide (input !! v = None)) (input_variables p).

(** [p.invoke(input)]: the input is validated, then formatted; the result is
    the prompt value, whose text is all that is used of it. *)
Definition prompt_invoke (p : PromptTemplate) (input : gmap string string)
  : M string :=
  match missing p input with
  | [] => lift (format p input)
  | v :: _ => raise (KeyError v)
  end.

(** ** The client object (cell 2) *)

Record ChatOpenAI : Type := {
  model_name : string;
  max_tokens : Z;
  temperature : Z;
  openai_api_key : option string
}.

(** [a | b] on runnables: the output of the first is the input of the
    second. *)
Definition pipe {A B C} (first : A -> M B) (last : B -> M C) : A -> M C :=
  fun input => let* mid := first input in last mid.

(** [obj.name] on a response object. *)
Definition getattr (obj : gmap string pyval) (name : string) : M pyval :=
  match obj !! name with
  | Some v => ret v
  | None => raise (AttributeError name)
  end.

(** ** The environment (cell 1) *)

Definition os_getenv (key : string) : M (option string) :=
  fun w => (Ok (environ w !! key), w).

(** [os.environ[key] = value]: only a string can be stored; [None] (what
    [os.getenv] gives for an unset variable) is rejected. *)
Definition os_environ_setitem (key : string) (value : option string) : M unit :=
  fun w => match value with
           | Some v => (Ok tt, World (<[key := v]> (environ w)) (outbound w))
           | None => (Raise (TypeError "str expected, not NoneType"), w)
           end.

(** [load_dotenv()]: the variables of the .env file are added to the
    environment; a variable already set keeps its value. *)
Definition load_dotenv (dotenv : gmap string string) : M unit :=
  fun w => (Ok tt, World (environ w ∪ dotenv) (outbound w)).

Section Agent.

(** The remote completion service behind the client object. *)
Variable client : request -> outcome.

(** [llm.invoke(prompt_value)]: one request, carrying the configuration of
    the client object and the text of the prompt. *)
Definition llm_invoke (llm : ChatOpenAI) (text : string)
  : M (gmap string pyval) :=
  fun w =>
    let r := {| req_model := model_name llm;
                req_max_tokens := max_tokens llm;
                req_temperature := temperature llm;
                req_api_key := openai_api_key llm;
                req_prompt := text |} in
    let w' := World (environ w) (outbound w ++ [r]) in
    match client r with
    | Returns obj => (Ok obj, w')
    | Raises e => (Raise e, w')
    end.

(** The constructor's own validation of the credential it finds in the
    environment ([None]: accepted).  It belongs to the client library,
    not to the notebook. *)
Variable check_api_key : option string -> option exn.

(** [ChatOpenAI(model=..., max_tokens=..., temperature=...)] *)
Definition ChatOpenAI_init (model : string) (max_tok temp : Z)
  : M ChatOpenAI :=
  let* key := os_getenv "OPENAI_API_KEY" in
  match check_api_key key with
  | Some e => raise e
  | None => ret {| model_name := model; max_tokens := max_tok;
                   temperature := temp;
                   openai_api_key := key |}
  end.

(** Cells 1 and 2, in order. *)
Definition setup (dotenv : gmap string string) : M ChatOpenAI :=
  let* _ := load_dotenv dotenv in
  let* key := os_getenv "OPENAI_API_KEY" in
  let* _ := os_environ_setitem "OPENAI_API_KEY" key in
  ChatOpenAI_init "gpt-4o-mini" 1000 0.

Section Cells.

(** The client object bound to [llm] by cell 2. *)
Variable llm : ChatOpenAI.

(** Cell 4: [qa_chain = prompt | llm] *)
Definition qa_chain : gmap string string -> M (gmap string pyval) :=
  pipe (prompt_invoke prompt) (llm_invoke llm).

(** Cell 5 *)
Definition get_answer (question : string) : M pyval :=
  let input_variables : gmap string string := {[ "question" := question ]} in
  let* response :=
    (let* message := qa_chain input_variables in getattr message "content") in
  ret response.

End Cells.

(** The notebook run from the top with one question. *)
Definition main (dotenv : gmap string string) (question : string) : M pyval :=
  let* llm := setup dotenv in
  get_answer llm question.

End Agent.

(** ** Vocabulary of the statements *)

(** [sub in s] *)
Fixpoint contains (s sub : string) : bool :=
  String.prefix sub s ||
  match s with
  | EmptyString => false
  | String _ r => contains r sub
  end.

(** Text without braces, and text that can stand as a field name. *)
Definition is_brace (c : ascii) : bool := Ascii.eqb c "{" || Ascii.eqb c "}".

Fixpoint literal (s : string) : bool :=
  match s with
  | EmptyString => true
  | String c r => negb (is_brace c) && literal r
  end.

Fixpoint field_name (s : string) : bool :=
  match s with
  | EmptyString => true
  | String c r => negb (Ascii.eqb c "}") && negb (is_field_special c) && field_name r
  end.

(** The text of the template before and after its slot. *)
Definition prompt_prefix : string :=
  String.concat EmptyString
    [ nl;
      "You are a helpful AI assistant. Your task is to answer the user's question to the best of your ability."; nl;
      nl;
      "User's question: " ].

Definition prompt_suffix : string :=
  String.concat EmptyString
    [ nl; nl; "Please provide a clear and concise answer:"; nl ].

(** Rendering a question: the first stage of [qa_chain], on the dictionary
    [get_answer] builds. *)
Definition render (question : string) : M string :=
  prompt_invoke prompt {[ "question" := question ]}.

(** The request a client object sends for a question. *)
Definition request_of (llm : ChatOpenAI) (question : string) : request :=
  {| req_model := model_name llm;
     req_max_tokens := max_tokens llm;
     req_temperature := temperature llm;
     req_api_key := openai_api_key llm;
     req_prompt := String.append prompt_prefix (String.append question prompt_suffix) |}.

(** The world after one more request. *)
Definition sent (r : request) (w : world) : world :=
  World (environ w) (outbound w ++ [r]).

(** Several calls of [get_answer], one after the other; a call that raises
    does not prevent the next one. *)
Fixpoint asks (client : request -> outcome) (llm : ChatOpenAI)
  (questions : list string) (w : world) : world :=
  match questions with
  | [] => w
  | q :: rest => asks client llm rest (snd (get_answer client llm q w))
  end.

(** The client object cell 2 builds when the credential is [key]. *)
Definition llm_with (key : string) : ChatOpenAI :=
  {| model_name := "gpt-4o-mini"; max_tokens := 1000; temperature := 0;
     openai_api_key := Some key |}.

(** *** Stubs *)

(** A client that answers every request with the same content. *)
Definition constant_client (content : pyval) : request -> outcome :=
  fun _ => Returns {[ "content" := content ]}.

Definition paris_client : request -> outcome :=
  constant_client (PyStr "Paris.").

Definition shapeless_client : request -> outcome :=
  fun _ => Returns {[ "text" := PyStr "Paris." ]}.

Definition TransportError : exn := Exn "TransportError" "connection failed".

Definition failing_client : request -> outcome :=
  fun _ => Raises TransportError.

(** A client that knows one question only. *)
Definition capital_client : request -> outcome :=
  fun r =>
    if String.eqb (req_prompt r)
         (String.append prompt_prefix
            (String.append "What is the capital of France?" prompt_suffix))
    then Returns {[ "content" := PyStr "Paris." ]}
    else Raises TransportError.

Definition rejecting_client : request -> outcome :=
  fun _ => Raises (Exn "AuthenticationError" "Incorrect API key provided").

(** A constructor that only asks for the credential to be set. *)
Definition check_is_set (key : option string) : option exn :=
  match key with
  | Some _ => None
  | None => Some (Exn "OpenAIError" "The api_key client option must be set")
  end.

(** A constructor that also refuses an empty credential. *)
Definition check_non_empty (key : option string) : option exn :=
  match key with
  | Some (String _ _) => None
  | _ => Some (ValueError "Did not find openai_api_key")
  end.

Definition empty_world : world := World ∅ [].

Definition test_world : world :=
  World {[ "OPENAI_API_KEY" := "sk-test" ]} [].

Definition empty_credential_world : world :=
  World {[ "OPENAI_API_KEY" := EmptyString ]} [].

(** ** The cells that use [get_answer] (cells 6 and 7)

    The two last cells talk to the user.  The console holds the lines still
    to be read from standard input, the prompts [input] has displayed, and
    what has been written to standard output. *)

Record console : Type := Console {
  stdin : list string;
  prompted : list string;
  stdout : string
}.

(** Statements that may also use the console. *)
Definition IO (A : Type) : Type :=
  world * console -> result A * (world * console).

Definition io_bind {A B} (c : IO A) (k : A -> IO B) : IO B :=
  fun s => match c s with
           | (Ok a, s') => k a s'
           | (Raise e, s') => (Raise e, s')
           end.

Notation "'let+' x ':=' c 'in' k" := (io_bind c (fun x => k))
  (at level 10, x name, c at level 100, k at level 200).

(** A statement that does not touch the console. *)
Definition run {A} (c : M A) : IO A :=
  fun s => match c (fst s) with
           | (r, w') => (r, (w', snd s))
           end.

Definition EOFError (msg : string) : exn := Exn "EOFError" msg.

(** [print(s)]: the text and a newline. *)
Definition print (s : string) : IO unit :=
  fun st =>
    let c := snd st in
    (Ok tt,
     (fst st,
      Console (stdin c) (prompted c)
        (String.append (stdout c) (String.append s nl)))).

(** [input(prompt)]: the prompt is displayed, then one line is read, without
    its newline; at the end of the input [EOFError] is raised. *)
Definition input (prompt_text : string) : IO string :=
  fun st =>
    let c := snd st in
    match stdin c with
    | [] =>
        (Raise (EOFError "EOF when reading a line"),
         (fst st, Console [] (prompted c ++ [prompt_text]) (stdout c)))
    | line :: rest =>
        (Ok line,
         (fst st, Console rest (prompted c ++ [prompt_text]) (stdout c)))
    end.

(** [str(v)], which is what an f-string puts in place of [{v}]. *)
Definition str (v : pyval) : string :=
  match v with
  | PyNone => "None"
  | PyStr s => s
  | PyInt z => pretty z
  end.

(** Cell 6: example usage *)
Definition example_usage (client : request -> outcome) (llm : ChatOpenAI)
  : IO unit :=
  let question := "What is the capital of France?" in
  let+ answer := run (get_answer client llm question) in
  let+ _ := print (String.append "Question: " question) in
  print (String.append "Answer: " (str answer)).

(** Cell 7: interactive cell for user questions *)
Definition interactive (client : request -> outcome) (llm : ChatOpenAI)
  : IO unit :=
  let+ user_question := input "Enter your question: " in
  let+ user_answer := run (get_answer client llm user_question) in
  print (String.append "Answer: " (str user_answer)).

(** All the cells, from top to bottom; the first exception stops the run. *)
Definition run_all (client : request -> outcome)
  (check_api_key : option string -> option exn)
  (dotenv : gmap string string) : IO unit :=
  let+ llm := run (setup check_api_key dotenv) in
  let+ _ := example_usage client llm in
  interactive client llm.

(** Cell 1, last line: [os.environ[key] = os.getenv(key)] *)
Definition export_credential : M unit :=
  let* key := os_getenv "OPENAI_API_KEY" in
  os_environ_setitem "OPENAI_API_KEY" key.

(** The console after [print(s)]. *)
Definition printed (s : string) (c : console) : console :=
  Console (stdin c) (prompted c)
    (String.append (stdout c) (String.append s nl)).

(** A client with the answers the notebook shows. *)
Definition recorded_client : request -> outcome :=
  fun r =>
    if String.eqb (req_prompt r)
         (String.append prompt_prefix
            (String.append "What is the capital of France?" prompt_suffix))
    then Returns {[ "content" := PyStr "The capital of France is Paris." ]}
    else Returns {[ "content" := PyStr "I'm just a program, so I don't have feelings, but I'm here and ready to help you! How can I assist you today?" ]}.

Definition fresh_console (lines : list string) : console :=
  Console lines [] EmptyString.

(** * Properties *)

(** ** Strings *)

Lemma append_nil (t : string) : String.append EmptyString t = t.
Proof. reflexivity. Qed.

Lemma append_cons (c : ascii) (s t : string) :
  String.append (String c s) t = String c (String.append s t).
Proof. reflexivity. Qed.

Lemma append_empty_r (s : string) : String.append s EmptyString = s.
Proof.
  induction s as [|c s IH]; [reflexivity | now rewrite append_cons, IH].
Qed.

Lemma append_assoc (a b c : string) :
  String.append (String.append a b) c = String.append a (String.append b c).
Proof.
  induction a as [|x a IH]; [reflexivity | now rewrite !append_cons, IH].
Qed.

Lemma snoc_append (acc : string) (c : ascii) (s : string) :
  String.append (snoc acc c) s = String.append acc (String c s).
Proof. unfold snoc. now rewrite append_assoc. Qed.

Lemma prefix_append (q t : string) : String.prefix q (String.append q t) = true.
Proof.
  induction q as [|c q IH].
  - now destruct t.
  - rewrite append_cons. simpl.
    destruct (ascii_dec c c) as [_|Hne]; [exact IH | now elim Hne].
Qed.

Lemma contains_unfold (s sub : string) :
  contains s sub =
  String.prefix sub s ||
  match s with EmptyString => false | String _ r => contains r sub end.
Proof. now destruct s. Qed.

Lemma contains_append (pre q post : string) :
  contains (String.append pre (String.append q post)) q = true.
Proof.
  induction pre as [|c pre IH].
  - rewrite append_nil, contains_unfold, prefix_append. reflexivity.
  - rewrite append_cons, contains_unfold, IH. apply orb_true_r.
Qed.

(** ** The formatter *)

Lemma map_result_append_empty (r : result string) :
  map_result (String.append EmptyString) r = r.
Proof. now destruct r. Qed.

Lemma map_result_compose {A B C} (f : A -> B) (g : B -> C) (r : result A) :
  map_result g (map_result f r) = map_result (fun a => g (f a)) r.
Proof. now destruct r. Qed.

(** Text without braces is copied. *)
Lemma vformat_literal kw (lit s : string) :
  literal lit = true ->
  vformat kw (String.append lit s) None =
  map_result (String.append lit) (vformat kw s None).
Proof.
  induction lit as [|c lit IH]; intros Hlit.
  - rewrite append_nil. now rewrite map_result_append_empty.
  - simpl in Hlit. apply andb_prop in Hlit as [Hc Hrest].
    unfold is_brace in Hc. apply negb_true_iff, orb_false_elim in Hc as [Ho Hcl].
    rewrite append_cons. cbn [vformat].
    rewrite Ho, Hcl, (IH Hrest), map_result_compose. reflexivity.
Qed.

(** Inside a field, the name is read up to the closing brace. *)
Lemma vformat_field kw (name acc s : string) :
  field_name name = true ->
  vformat kw (String.append name (String "}" s)) (Some acc) =
  match get_field kw (String.append acc name) with
  | Ok v => map_result (String.append v) (vformat kw s None)
  | Raise e => Raise e
  end.
Proof.
  revert acc. induction name as [|c name IH]; intros acc Hname.
  - rewrite append_empty_r. reflexivity.
  - simpl in Hname.
    apply andb_prop in Hname as [Hc Hrest]. apply andb_prop in Hc as [Hcl Hsp].
    apply negb_true_iff in Hcl, Hsp.
    rewrite append_cons. cbn [vformat].
    rewrite Hcl, Hsp, (IH _ Hrest), snoc_append. reflexivity.
Qed.

(** An opening brace followed by a field name opens a field. *)
Lemma vformat_open kw (name s : string) :
  field_name name = true ->
  vformat kw (String "{" (String.append name (String "}" s))) None =
  vformat kw (String.append name (String "}" s)) (Some EmptyString).
Proof.
  intros Hname. destruct name as [|c name].
  - reflexivity.
  - simpl in Hname.
    apply andb_prop in Hname as [Hc _]. apply andb_prop in Hc as [_ Hsp].
    apply negb_true_iff in Hsp.
    assert (Ascii.eqb c "{" = false) as Ho.
    { destruct (Ascii.eqb_spec c "{") as [->|]; [discriminate Hsp | reflexivity]. }
    rewrite append_cons.
    cbn [vformat]. change (Ascii.eqb "{" "{") with true. cbv iota. now rewrite Ho.
Qed.

Lemma template_split :
  template =
  String.append prompt_prefix
    (String "{" (String.append "question" (String "}" prompt_suffix))).
Proof. reflexivity. Qed.

(** Rendering the notebook's template: the slot is replaced by the value of
    [question], and nothing else changes. *)
Lemma format_prompt (kw : gmap string string) (q : string) :
  kw !! "question" = Some q ->
  format prompt kw =
  Ok (String.append prompt_prefix (String.append q prompt_suffix)).
Proof.
  intros Hq. unfold format. change (pt_template prompt) with template.
  rewrite template_split.
  rewrite vformat_literal by reflexivity.
  rewrite vformat_open by reflexivity.
  rewrite vformat_field by reflexivity.
  rewrite append_nil.
  unfold get_field. rewrite Hq.
  rewrite <- (append_empty_r prompt_suffix) at 1.
  rewrite vformat_literal by reflexivity.
  cbn [vformat map_result]. now rewrite append_empty_r.
Qed.

(** The formatter on small templates: doubled braces, braces inside the
    substituted value, a stray brace, an unknown field. *)
Example vformat_escaped_braces :
  vformat {[ "question" := "why?" ]} "{{q}}: {question}" None =
  Ok "{q}: why?".
Proof. reflexivity. Qed.

Example vformat_value_not_rescanned :
  vformat {[ "question" := "what is {x}?" ]} "Q: {question}!" None =
  Ok "Q: what is {x}?!".
Proof. reflexivity. Qed.

Example vformat_stray_brace :
  vformat {[ "question" := "why?" ]} "{question} }" None =
  Raise (ValueError "Single '}' encountered in format string").
Proof. reflexivity. Qed.

Example vformat_unknown_field :
  vformat {[ "question" := "why?" ]} "{answer}" None =
  Raise (KeyError "answer").
Proof. reflexivity. Qed.

(** ** Rendering *)

Lemma missing_question (q : string) :
  missing prompt {[ "question" := q ]} = [].
Proof.
  unfold missing. cbn [input_variables prompt List.filter].
  rewrite lookup_singleton_eq.
  rewrite bool_decide_eq_false_2 by discriminate. reflexivity.
Qed.

Lemma render_spec (q : string) (w : world) :
  render q w =
  (Ok (String.append prompt_prefix (String.append q prompt_suffix)), w).
Proof.
  unfold render, prompt_invoke. rewrite missing_question. unfold lift.
  rewrite (format_prompt _ q) by apply lookup_singleton_eq. reflexivity.
Qed.

(** C9: for every question [q], the rendered prompt is the fixed prefix,
    then [q] unchanged, then the fixed suffix; rendering always succeeds, so
    the equation holds without a side condition. *)
Theorem render_is_concatenation (q : string) (w : world) :
  fst (render q w) =
  Ok (String.append
        (String.append nl
          (String.append "You are a helpful AI assistant. Your task is to answer the user's question to the best of your ability."
            (String.append nl (String.append nl "User's question: "))))
        (String.append q
          (String.append nl
            (String.append nl
              (String.append "Please provide a clear and concise answer:" nl))))).
Proof. rewrite render_spec. reflexivity. Qed.

(** C2: the rendered prompt contains the question as a substring, and what
    surrounds it is the same text for every question. *)
Theorem render_contains_question :
  exists pre post : string,
    forall (q : string) (w : world),
    exists text : string,
      fst (render q w) = Ok text /\
      contains text q = true /\
      text = String.append pre (String.append q post).
Proof.
  exists prompt_prefix, prompt_suffix. intros q w.
  exists (String.append prompt_prefix (String.append q prompt_suffix)).
  rewrite render_spec. split; [reflexivity | split].
  - apply contains_append.
  - reflexivity.
Qed.

(** C3: rendering is total and pure: for every string it returns a text
    without raising, leaves the world (environment and outbound requests)
    as it was, and gives the same text in every world. *)
Theorem render_pure_total (q : string) :
  (forall w : world, exists text : string, render q w = (Ok text, w)) /\
  (forall w1 w2 : world, fst (render q w1) = fst (render q w2)).
Proof.
  split.
  - intros w. eexists. apply render_spec.
  - intros w1 w2. now rewrite !render_spec.
Qed.

(** ** Asking *)

(** What [get_answer] does, case by case on what the client gives back. *)
Lemma get_answer_spec (client : request -> outcome) (llm : ChatOpenAI)
  (q : string) (w : world) :
  get_answer client llm q w =
  match client (request_of llm q) with
  | Returns obj =>
      match obj !! "content" with
      | Some v => (Ok v, sent (request_of llm q) w)
      | None => (Raise (AttributeError "content"), sent (request_of llm q) w)
      end
  | Raises e => (Raise e, sent (request_of llm q) w)
  end.
Proof.
  unfold get_answer, qa_chain, pipe, bind.
  change (prompt_invoke prompt {[ "question" := q ]}) with (render q).
  rewrite render_spec. unfold llm_invoke.
  change (Request _ _ _ _ _) with (request_of llm q).
  change (World (environ w) _) with (sent (request_of llm q) w).
  destruct (client (request_of llm q)) as [obj|e]; [|reflexivity].
  unfold getattr. destruct (obj !! "content"); reflexivity.
Qed.

Lemma get_answer_outbound (client : request -> outcome) (llm : ChatOpenAI)
  (q : string) (w : world) :
  snd (get_answer client llm q w) = sent (request_of llm q) w.
Proof.
  rewrite get_answer_spec.
  destruct (client (request_of llm q)) as [obj|e]; [|reflexivity].
  destruct (obj !! "content"); reflexivity.
Qed.

Lemma asks_outbound (client : request -> outcome) (llm : ChatOpenAI)
  (questions : list string) (w : world) :
  outbound (asks client llm questions w) =
  (outbound w ++ List.map (request_of llm) questions)%list.
Proof.
  revert w. induction questions as [|q rest IH]; intros w.
  - cbn. now rewrite app_nil_r.
  - cbn [asks List.map]. rewrite IH, get_answer_outbound.
    unfold sent. cbn [outbound]. now rewrite <- app_assoc.
Qed.

(** C1: when the client returns a response object whose [content] is [v],
    [get_answer] returns [v] itself, whatever it is (empty, padded with
    spaces, [None]); one request, for the rendered prompt, has been sent. *)
Theorem get_answer_returns_content (client : request -> outcome)
  (llm : ChatOpenAI) (q : string) (w : world)
  (obj : gmap string pyval) (v : pyval) :
  client (request_of llm q) = Returns obj ->
  obj !! "content" = Some v ->
  get_answer client llm q w = (Ok v, sent (request_of llm q) w).
Proof.
  intros Hresp Hcontent. now rewrite get_answer_spec, Hresp, Hcontent.
Qed.

(** With a client that always answers "Paris.", the capital of France is
    "Paris.". *)
Lemma get_answer_paris :
  get_answer paris_client (llm_with "sk-test")
    "What is the capital of France?" test_world =
  (Ok (PyStr "Paris."),
   sent (request_of (llm_with "sk-test") "What is the capital of France?")
     test_world).
Proof.
  apply (get_answer_returns_content paris_client (llm_with "sk-test")
           "What is the capital of France?" test_world
           {[ "content" := PyStr "Paris." ]} (PyStr "Paris.")).
  - reflexivity.
  - reflexivity.
Defined.

(** The content is handed over as it is: an empty string, a string with
    blanks around it, [None]. *)
Example get_answer_empty_content :
  fst (get_answer (constant_client (PyStr EmptyString)) (llm_with "sk-test")
         "What is the capital of France?" test_world) = Ok (PyStr EmptyString).
Proof. reflexivity. Qed.

Example get_answer_untrimmed_content :
  fst (get_answer (constant_client (PyStr "  Paris. ")) (llm_with "sk-test")
         "What is the capital of France?" test_world) = Ok (PyStr "  Paris. ").
Proof. reflexivity. Qed.

Example get_answer_none_content :
  fst (get_answer (constant_client PyNone) (llm_with "sk-test")
         "What is the capital of France?" test_world) = Ok PyNone.
Proof. reflexivity. Qed.

(** C4, as the code has it: when the response object has no [content]
    attribute, [get_answer] raises the [AttributeError] of the attribute
    access; it returns no value, in particular neither [None] nor an empty
    string. *)
Theorem get_answer_missing_content (client : request -> outcome)
  (llm : ChatOpenAI) (q : string) (w : world) (obj : gmap string pyval) :
  client (request_of llm q) = Returns obj ->
  obj !! "content" = None ->
  get_answer client llm q w =
    (Raise (AttributeError "content"), sent (request_of llm q) w) /\
  forall v : pyval, fst (get_answer client llm q w) <> Ok v.
Proof.
  intros Hresp Hcontent. rewrite get_answer_spec, Hresp, Hcontent.
  split; [reflexivity | intros v; discriminate].
Qed.

Lemma get_answer_shapeless :
  get_answer shapeless_client (llm_with "sk-test")
    "What is the capital of France?" test_world =
    (Raise (AttributeError "content"),
     sent (request_of (llm_with "sk-test") "What is the capital of France?")
       test_world) /\
  forall v : pyval,
    fst (get_answer shapeless_client (llm_with "sk-test")
           "What is the capital of France?" test_world) <> Ok v.
Proof.
  apply (get_answer_missing_content shapeless_client (llm_with "sk-test")
           "What is the capital of France?" test_world
           {[ "text" := PyStr "Paris." ]}).
  - reflexivity.
  - reflexivity.
Defined.

(** C4, as stated, fails: for a response object without [content], the
    exception raised is not of class [ResponseShapeError]. *)
Lemma get_answer_not_ResponseShapeError :
  shapeless_client (request_of (llm_with "sk-test") "What is the capital of France?")
    = Returns {[ "text" := PyStr "Paris." ]} /\
  ({[ "text" := PyStr "Paris." ]} : gmap string pyval) !! "content" = None /\
  ~ exists (e : exn) (w' : world),
      get_answer shapeless_client (llm_with "sk-test")
        "What is the capital of France?" test_world = (Raise e, w') /\
      exn_class e = "ResponseShapeError".
Proof.
  split; [reflexivity | split; [reflexivity |]].
  intros (e & w' & Hraise & Hclass).
  rewrite get_answer_spec in Hraise. cbn in Hraise.
  inversion Hraise; subst e. discriminate Hclass.
Qed.

(** C5: an exception raised by the client leaves [get_answer] as it is, the
    same exception, after exactly one request: nothing catches it and the
    client is not called again. *)
Theorem get_answer_propagates (client : request -> outcome)
  (llm : ChatOpenAI) (q : string) (w : world) (e : exn) :
  client (request_of llm q) = Raises e ->
  get_answer client llm q w = (Raise e, sent (request_of llm q) w) /\
  length (outbound (snd (get_answer client llm q w))) =
    S (length (outbound w)).
Proof.
  intros Hfault. rewrite get_answer_spec, Hfault. split; [reflexivity|].
  cbn. rewrite length_app. cbn. lia.
Qed.

Lemma get_answer_transport_fault :
  get_answer failing_client (llm_with "sk-test")
    "What is the capital of France?" test_world =
    (Raise TransportError,
     sent (request_of (llm_with "sk-test") "What is the capital of France?")
       test_world) /\
  length (outbound (snd (get_answer failing_client (llm_with "sk-test")
                           "What is the capital of France?" test_world))) =
    S (length (outbound test_world)).
Proof.
  apply (get_answer_propagates failing_client (llm_with "sk-test")
           "What is the capital of France?" test_world TransportError).
  reflexivity.
Defined.

(** C7: one call of [get_answer] sends exactly one request, whatever the
    client does with it; rendering alone sends none. *)
Theorem get_answer_one_request (client : request -> outcome)
  (llm : ChatOpenAI) (q : string) (w : world) :
  outbound (snd (get_answer client llm q w)) =
    (outbound w ++ [request_of llm q])%list /\
  outbound (snd (render q w)) = outbound w.
Proof.
  rewrite get_answer_outbound, render_spec. split; reflexivity.
Qed.

(** ** Startup *)

(** What cells 1 and 2 do, by the credential found once the .env file has
    been read. *)
Lemma setup_spec (check_api_key : option string -> option exn)
  (dotenv : gmap string string) (w : world) :
  setup check_api_key dotenv w =
  match (environ w ∪ dotenv) !! "OPENAI_API_KEY" with
  | None =>
      (Raise (TypeError "str expected, not NoneType"),
       World (environ w ∪ dotenv) (outbound w))
  | Some key =>
      match check_api_key (Some key) with
      | Some e => (Raise e, World (environ w ∪ dotenv) (outbound w))
      | None => (Ok (llm_with key), World (environ w ∪ dotenv) (outbound w))
      end
  end.
Proof.
  unfold setup, bind, load_dotenv, os_getenv. cbn [environ outbound].
  destruct ((environ w ∪ dotenv) !! "OPENAI_API_KEY") as [key|] eqn:Hkey;
    [|reflexivity].
  cbn [os_environ_setitem environ outbound].
  rewrite (insert_id _ _ _ Hkey).
  unfold ChatOpenAI_init, bind, os_getenv. cbn [environ]. rewrite Hkey.
  destruct (check_api_key (Some key)); reflexivity.
Qed.

(** C8: the client object that startup builds has model "gpt-4o-mini", at
    most 1000 output tokens and temperature 0, and every request sent by any
    sequence of [get_answer] calls carries exactly these three. *)
Theorem setup_configuration (client : request -> outcome)
  (check_api_key : option string -> option exn)
  (dotenv : gmap string string) (w w' : world) (llm : ChatOpenAI) :
  setup check_api_key dotenv w = (Ok llm, w') ->
  (model_name llm = "gpt-4o-mini" /\ max_tokens llm = 1000 /\
   temperature llm = 0) /\
  forall (questions : list string) (w1 : world),
    outbound (asks client llm questions w1) =
      (outbound w1 ++ List.map (request_of llm) questions)%list /\
    Forall (fun r => req_model r = "gpt-4o-mini" /\ req_max_tokens r = 1000 /\
                     req_temperature r = 0)
      (List.map (request_of llm) questions).
Proof.
  intros Hsetup. rewrite setup_spec in Hsetup.
  assert (exists key, llm = llm_with key) as [key ->].
  { destruct (_ !! "OPENAI_API_KEY") as [key|]; [|discriminate Hsetup].
    destruct (check_api_key (Some key)); [discriminate Hsetup|].
    exists key. now inversion Hsetup. }
  split; [now repeat split|].
  intros questions w1. split; [apply asks_outbound|].
  induction questions as [|q rest IH]; cbn [List.map]; constructor.
  - now repeat split.
  - exact IH.
Qed.

Lemma setup_configuration_test :
  (model_name (llm_with "sk-test") = "gpt-4o-mini" /\
   max_tokens (llm_with "sk-test") = 1000 /\
   temperature (llm_with "sk-test") = 0) /\
  forall (questions : list string) (w1 : world),
    outbound (asks capital_client (llm_with "sk-test") questions w1) =
      (outbound w1 ++ List.map (request_of (llm_with "sk-test")) questions)%list /\
    Forall (fun r => req_model r = "gpt-4o-mini" /\ req_max_tokens r = 1000 /\
                     req_temperature r = 0)
      (List.map (request_of (llm_with "sk-test")) questions).
Proof.
  apply (setup_configuration capital_client check_non_empty ∅ test_world
           test_world (llm_with "sk-test")).
  vm_compute. reflexivity.
Defined.

(** C6, as the code has it: when the credential is set neither in the
    environment nor in the .env file, startup stops with a [TypeError] at
    the assignment to [os.environ], before the client object is built and
    before [get_answer] can be called: no request is ever sent.  When it is
    set, even to the empty string, the notebook's own statements accept it,
    and startup fails exactly when the constructor's validation refuses
    it. *)
Theorem setup_credential (client : request -> outcome)
  (check_api_key : option string -> option exn)
  (dotenv : gmap string string) (w : world) :
  match (environ w ∪ dotenv) !! "OPENAI_API_KEY" with
  | None =>
      setup check_api_key dotenv w =
        (Raise (TypeError "str expected, not NoneType"),
         World (environ w ∪ dotenv) (outbound w)) /\
      forall q : string,
        main client check_api_key dotenv q w =
          (Raise (TypeError "str expected, not NoneType"),
           World (environ w ∪ dotenv) (outbound w))
  | Some key =>
      setup check_api_key dotenv w =
        match check_api_key (Some key) with
        | Some e => (Raise e, World (environ w ∪ dotenv) (outbound w))
        | None => (Ok (llm_with key), World (environ w ∪ dotenv) (outbound w))
        end
  end.
Proof.
  pose proof (setup_spec check_api_key dotenv w) as Hsetup.
  destruct (_ !! "OPENAI_API_KEY") as [key|]; [exact Hsetup|].
  split; [exact Hsetup|].
  intros q. unfold main, bind. now rewrite Hsetup.
Qed.

(** C6, as stated, fails.  Without a credential the exception is a
    [TypeError], not a [ConfigurationError]; with an empty credential and a
    constructor that only asks for the credential to be set, startup
    succeeds, and the failure comes from the service at the first call,
    after a request has been sent. *)
Lemma setup_accepts_empty_credential :
  (fst (setup check_is_set ∅ empty_world) =
     Raise (TypeError "str expected, not NoneType") /\
   exn_class (TypeError "str expected, not NoneType") <> "ConfigurationError") /\
  setup check_is_set ∅ empty_credential_world =
    (Ok (llm_with EmptyString), empty_credential_world) /\
  main rejecting_client check_is_set ∅ "What is the capital of France?"
    empty_credential_world =
    (Raise (Exn "AuthenticationError" "Incorrect API key provided"),
     sent (request_of (llm_with EmptyString) "What is the capital of France?")
       empty_credential_world).
Proof.
  split; [split; [vm_compute; reflexivity | discriminate]|].
  split; vm_compute; reflexivity.
Qed.

(** C10: the answer depends on the question and on what the client gives
    back for it, and on nothing else: not on the world in which the call is
    made, not on an earlier call; and the call leaves the environment as it
    was. *)
Theorem get_answer_determined (client1 client2 : request -> outcome)
  (llm : ChatOpenAI) (q earlier : string) (w1 w2 : world) :
  client1 (request_of llm q) = client2 (request_of llm q) ->
  fst (get_answer client1 llm q w1) = fst (get_answer client2 llm q w2) /\
  fst (get_answer client1 llm q (snd (get_answer client1 llm earlier w1))) =
    fst (get_answer client1 llm q w1) /\
  environ (snd (get_answer client1 llm q w1)) = environ w1.
Proof.
  intros Hsame. rewrite !get_answer_spec, <- Hsame.
  destruct (client1 (request_of llm q)) as [obj|e].
  - destruct (obj !! "content"); repeat split; reflexivity.
  - repeat split; reflexivity.
Qed.

Lemma get_answer_determined_test :
  fst (get_answer paris_client (llm_with "sk-test")
         "What is the capital of France?" test_world) =
    fst (get_answer capital_client (llm_with "sk-test")
           "What is the capital of France?" empty_world) /\
  fst (get_answer paris_client (llm_with "sk-test")
         "What is the capital of France?"
         (snd (get_answer paris_client (llm_with "sk-test")
                 "How are you?" test_world))) =
    fst (get_answer paris_client (llm_with "sk-test")
           "What is the capital of France?" test_world) /\
  environ (snd (get_answer paris_client (llm_with "sk-test")
                  "What is the capital of France?" test_world)) =
    environ test_world.
Proof.
  apply (get_answer_determined paris_client capital_client
           (llm_with "sk-test") "What is the capital of France?"
           "How are you?" test_world empty_world).
  vm_compute. reflexivity.
Defined.

(** ** More on startup *)

(** X1: storing the credential back into the environment changes nothing: the
    statement either raises [TypeError], when the variable is not set, or
    succeeds; in both cases the world is as before. *)
Theorem export_credential_spec (w : world) :
  snd (export_credential w) = w /\
  fst (export_credential w) =
    match environ w !! "OPENAI_API_KEY" with
    | Some _ => Ok tt
    | None => Raise (TypeError "str expected, not NoneType")
    end.
Proof.
  unfold export_credential, bind, os_getenv, os_environ_setitem.
  destruct (environ w !! "OPENAI_API_KEY") as [key|] eqn:Hkey; cbn.
  - rewrite (insert_id _ _ _ Hkey). now destruct w.
  - now split.
Qed.

Lemma main_outbound (client : request -> outcome)
  (check_api_key : option string -> option exn)
  (dotenv : gmap string string) (q : string) (w : world) (key : string) :
  (environ w ∪ dotenv) !! "OPENAI_API_KEY" = Some key ->
  check_api_key (Some key) = None ->
  main client check_api_key dotenv q w =
  get_answer client (llm_with key) q (World (environ w ∪ dotenv) (outbound w)).
Proof.
  intros Hkey Hcheck. unfold main, bind.
  now rewrite setup_spec, Hkey, Hcheck.
Qed.

(** X2: a credential set in the process environment wins over the one of the
    .env file, which is used only when the environment has none; the client
    object is built with that credential and sends it with the request. *)
Theorem setup_credential_precedence (client : request -> outcome)
  (check_api_key : option string -> option exn)
  (dotenv : gmap string string) (w : world) (key : string) :
  check_api_key (Some key) = None ->
  environ w !! "OPENAI_API_KEY" = Some key \/
  (environ w !! "OPENAI_API_KEY" = None /\
   dotenv !! "OPENAI_API_KEY" = Some key) ->
  fst (setup check_api_key dotenv w) = Ok (llm_with key) /\
  forall q : string,
    exists r : request,
      outbound (snd (main client check_api_key dotenv q w)) =
        (outbound w ++ [r])%list /\
      req_api_key r = Some key /\
      req_prompt r = String.append prompt_prefix (String.append q prompt_suffix).
Proof.
  intros Hcheck Hwhere.
  assert ((environ w ∪ dotenv) !! "OPENAI_API_KEY" = Some key) as Hkey.
  { destruct Hwhere as [Henv|[Henv Hfile]].
    - now apply lookup_union_Some_l.
    - now rewrite lookup_union_r. }
  split.
  - now rewrite setup_spec, Hkey, Hcheck.
  - intros q. exists (request_of (llm_with key) q).
    rewrite (main_outbound _ _ _ _ _ key Hkey Hcheck), get_answer_outbound.
    now repeat split.
Qed.

Lemma setup_environment_wins :
  fst (setup check_non_empty {[ "OPENAI_API_KEY" := "sk-file" ]}
         (World {[ "OPENAI_API_KEY" := "sk-env" ]} [])) =
    Ok (llm_with "sk-env") /\
  forall q : string,
    exists r : request,
      outbound (snd (main paris_client check_non_empty
                       {[ "OPENAI_API_KEY" := "sk-file" ]} q
                       (World {[ "OPENAI_API_KEY" := "sk-env" ]} []))) =
        ([] ++ [r])%list /\
      req_api_key r = Some "sk-env" /\
      req_prompt r = String.append prompt_prefix (String.append q prompt_suffix).
Proof.
  apply (setup_credential_precedence paris_client check_non_empty
           {[ "OPENAI_API_KEY" := "sk-file" ]}
           (World {[ "OPENAI_API_KEY" := "sk-env" ]} []) "sk-env").
  - reflexivity.
  - left. reflexivity.
Defined.

(** ** More on the template and the chain *)

(** X3: of the keyword arguments, the template uses [question] and nothing
    else: with it, the text is the framing around its value, whatever the
    other arguments; without it, [KeyError] names the missing field. *)
Theorem format_prompt_total (kw : gmap string string) :
  format prompt kw =
  match kw !! "question" with
  | Some q => Ok (String.append prompt_prefix (String.append q prompt_suffix))
  | None => Raise (KeyError "question")
  end.
Proof.
  destruct (kw !! "question") as [q|] eqn:Hq.
  - now apply format_prompt.
  - unfold format. change (pt_template prompt) with template.
    rewrite template_split.
    rewrite vformat_literal by reflexivity.
    rewrite vformat_open by reflexivity.
    rewrite vformat_field by reflexivity.
    rewrite append_nil. unfold get_field. rewrite Hq. reflexivity.
Qed.

(** X4: the chain invoked on any dictionary: without [question] it raises
    [KeyError] before anything is sent; with it, the other keys are ignored
    and the request is the one for that question. *)
Theorem qa_chain_spec (client : request -> outcome) (llm : ChatOpenAI)
  (d : gmap string string) (w : world) :
  match d !! "question" with
  | None => qa_chain client llm d w = (Raise (KeyError "question"), w)
  | Some q =>
      qa_chain client llm d w = qa_chain client llm {[ "question" := q ]} w /\
      outbound (snd (qa_chain client llm d w)) =
        (outbound w ++ [request_of llm q])%list
  end.
Proof.
  assert (forall d' q, d' !! "question" = Some q ->
            qa_chain client llm d' w =
            llm_invoke client llm
              (String.append prompt_prefix (String.append q prompt_suffix)) w)
    as Hsome.
  { intros d' q Hq. unfold qa_chain, pipe, bind, prompt_invoke, missing.
    cbn [input_variables prompt List.filter]. rewrite Hq.
    rewrite bool_decide_eq_false_2 by discriminate.
    unfold lift. now rewrite (format_prompt _ q Hq). }
  destruct (d !! "question") as [q|] eqn:Hq.
  - rewrite (Hsome d q Hq).
    rewrite (Hsome {[ "question" := q ]} q) by apply lookup_singleton_eq.
    split; [reflexivity|].
    unfold llm_invoke. change (Request _ _ _ _ _) with (request_of llm q).
    now destruct (client (request_of llm q)).
  - unfold qa_chain, pipe, bind, prompt_invoke, missing.
    cbn [input_variables prompt List.filter]. rewrite Hq.
    rewrite bool_decide_eq_true_2 by reflexivity. reflexivity.
Qed.

Lemma append_length (a b : string) :
  String.length (String.append a b) = (String.length a + String.length b)%nat.
Proof.
  induction a as [|c a IH]; [reflexivity|].
  rewrite append_cons. cbn [String.length]. now rewrite IH.
Qed.

Lemma append_cancel_l (a b c : string) :
  String.append a b = String.append a c -> b = c.
Proof.
  induction a as [|x a IH]; [easy|].
  rewrite !append_cons. intros H. injection H as H. now apply IH.
Qed.

Lemma append_cancel_r (a b c : string) :
  String.append a c = String.append b c -> a = b.
Proof.
  revert b. induction a as [|x a IH]; intros [|y b] H.
  - reflexivity.
  - apply (f_equal String.length) in H.
    rewrite append_nil, append_length in H. cbn [String.length] in H. lia.
  - apply (f_equal String.length) in H.
    rewrite append_nil, append_length in H. cbn [String.length] in H. lia.
  - rewrite !append_cons in H. injection H as -> H. f_equal. now apply IH.
Qed.

(** X5: different questions are sent as different prompts. *)
Theorem render_injective (llm : ChatOpenAI) (q1 q2 : string) (w1 w2 : world) :
  q1 <> q2 ->
  fst (render q1 w1) <> fst (render q2 w2) /\
  request_of llm q1 <> request_of llm q2.
Proof.
  intros Hne.
  assert (String.append prompt_prefix (String.append q1 prompt_suffix) <>
          String.append prompt_prefix (String.append q2 prompt_suffix)) as Htext.
  { intros H. apply append_cancel_l, append_cancel_r in H. now apply Hne. }
  split.
  - rewrite !render_spec. cbn [fst]. intros H. apply Htext. congruence.
  - unfold request_of. intros H. apply Htext. congruence.
Qed.

Lemma render_injective_test :
  fst (render "What is the capital of France?" test_world) <>
    fst (render "What is the capital of France" empty_world) /\
  request_of (llm_with "sk-test") "What is the capital of France?" <>
    request_of (llm_with "sk-test") "What is the capital of France".
Proof.
  apply (render_injective (llm_with "sk-test")
           "What is the capital of France?" "What is the capital of France"
           test_world empty_world).
  discriminate.
Defined.

(** ** The cells that use [get_answer] *)

Lemma get_answer_pair (client : request -> outcome) (llm : ChatOpenAI)
  (q : string) (w : world) :
  get_answer client llm q w =
  (fst (get_answer client llm q w), sent (request_of llm q) w).
Proof.
  rewrite <- (get_answer_outbound client). apply surjective_pairing.
Qed.

(** X6: the example cell, when the client answers with content [v]: one request
    is sent, then the question and the answer are printed, each on its
    line; the answer is [str(v)], so [None] is printed as "None". *)
Theorem example_usage_prints (client : request -> outcome) (llm : ChatOpenAI)
  (w : world) (c : console) (obj : gmap string pyval) (v : pyval) :
  client (request_of llm "What is the capital of France?") = Returns obj ->
  obj !! "content" = Some v ->
  example_usage client llm (w, c) =
  (Ok tt,
   (sent (request_of llm "What is the capital of France?") w,
    printed (String.append "Answer: " (str v))
      (printed "Question: What is the capital of France?" c))).
Proof.
  intros Hresp Hcontent. unfold example_usage, io_bind, run. cbn [fst snd].
  rewrite get_answer_spec, Hresp, Hcontent. reflexivity.
Qed.

(** With the answer the notebook shows, the output is the one it shows. *)
Lemma example_usage_recorded :
  example_usage recorded_client (llm_with "sk-test")
    (test_world, fresh_console []) =
  (Ok tt,
   (sent (request_of (llm_with "sk-test") "What is the capital of France?")
      test_world,
    Console [] []
      (String.concat nl
         [ "Question: What is the capital of France?";
           "Answer: The capital of France is Paris.";
           EmptyString ]))).
Proof.
  apply (example_usage_prints recorded_client (llm_with "sk-test") test_world
           (fresh_console [])
           {[ "content" := PyStr "The capital of France is Paris." ]}
           (PyStr "The capital of France is Paris.")).
  - reflexivity.
  - reflexivity.
Defined.

(** X7: the example cell, when [get_answer] raises: the exception leaves the
    cell and nothing is printed, not even the question; the request has
    been sent. *)
Theorem example_usage_silent (client : request -> outcome) (llm : ChatOpenAI)
  (w : world) (c : console) (e : exn) :
  fst (get_answer client llm "What is the capital of France?" w) = Raise e ->
  example_usage client llm (w, c) =
  (Raise e,
   (sent (request_of llm "What is the capital of France?") w, c)).
Proof.
  intros Hraise. unfold example_usage, io_bind, run. cbn [fst snd].
  rewrite get_answer_pair, Hraise. reflexivity.
Qed.

Lemma example_usage_silent_test :
  example_usage failing_client (llm_with "sk-test")
    (test_world, fresh_console ["How are you?"]) =
  (Raise TransportError,
   (sent (request_of (llm_with "sk-test") "What is the capital of France?")
      test_world,
    fresh_console ["How are you?"])).
Proof.
  apply (example_usage_silent failing_client (llm_with "sk-test") test_world
           (fresh_console ["How are you?"]) TransportError).
  reflexivity.
Defined.

(** X8: the interactive cell, when a line can be read and the client answers
    with content [v]: the prompt is displayed once, one line is consumed and
    sent as the question exactly as typed (not trimmed, not checked for
    emptiness), and the answer is printed. *)
Theorem interactive_forwards_line (client : request -> outcome)
  (llm : ChatOpenAI) (w : world) (c : console) (line : string)
  (rest : list string) (obj : gmap string pyval) (v : pyval) :
  stdin c = line :: rest ->
  client (request_of llm line) = Returns obj ->
  obj !! "content" = Some v ->
  interactive client llm (w, c) =
  (Ok tt,
   (sent (request_of llm line) w,
    Console rest (prompted c ++ ["Enter your question: "])
      (String.append (stdout c)
         (String.append (String.append "Answer: " (str v)) nl)))).
Proof.
  intros Hline Hresp Hcontent.
  unfold interactive, io_bind, input, run. cbn [fst snd]. rewrite Hline.
  cbn [fst snd]. rewrite get_answer_spec, Hresp, Hcontent. reflexivity.
Qed.

Lemma interactive_recorded :
  interactive recorded_client (llm_with "sk-test")
    (test_world, fresh_console ["How are you?"; "bye"]) =
  (Ok tt,
   (sent (request_of (llm_with "sk-test") "How are you?") test_world,
    Console ["bye"] ["Enter your question: "]
      (String.append
         "Answer: I'm just a program, so I don't have feelings, but I'm here and ready to help you! How can I assist you today?"
         nl))).
Proof.
  apply (interactive_forwards_line recorded_client (llm_with "sk-test")
           test_world (fresh_console ["How are you?"; "bye"])
           "How are you?" ["bye"]
           {[ "content" := PyStr "I'm just a program, so I don't have feelings, but I'm here and ready to help you! How can I assist you today?" ]}
           (PyStr "I'm just a program, so I don't have feelings, but I'm here and ready to help you! How can I assist you today?")).
  - reflexivity.
  - reflexivity.
  - reflexivity.
Defined.

(** X9: the interactive cell at the end of the input: [EOFError], after the
    prompt has been displayed; no request is sent and nothing is printed. *)
Theorem interactive_end_of_input (client : request -> outcome)
  (llm : ChatOpenAI) (w : world) (c : console) :
  stdin c = [] ->
  interactive client llm (w, c) =
  (Raise (EOFError "EOF when reading a line"),
   (w, Console [] (prompted c ++ ["Enter your question: "]) (stdout c))).
Proof.
  intros Hline. unfold interactive, io_bind, input. cbn [fst snd].
  now rewrite Hline.
Qed.

Lemma interactive_end_of_input_test :
  interactive paris_client (llm_with "sk-test")
    (test_world, fresh_console []) =
  (Raise (EOFError "EOF when reading a line"),
   (test_world, Console [] ["Enter your question: "] EmptyString)).
Proof.
  apply (interactive_end_of_input paris_client (llm_with "sk-test")
           test_world (fresh_console [])).
  reflexivity.
Defined.

(** X10: the interactive cell, when [get_answer] raises on the line read: the
    line is consumed and its request sent, the exception leaves the cell
    and no answer line is printed. *)
Theorem interactive_silent (client : request -> outcome) (llm : ChatOpenAI)
  (w : world) (c : console) (line : string) (rest : list string) (e : exn) :
  stdin c = line :: rest ->
  fst (get_answer client llm line w) = Raise e ->
  interactive client llm (w, c) =
  (Raise e,
   (sent (request_of llm line) w,
    Console rest (prompted c ++ ["Enter your question: "]) (stdout c))).
Proof.
  intros Hline Hraise.
  unfold interactive, io_bind, input, run. cbn [fst snd]. rewrite Hline.
  cbn [fst snd]. rewrite get_answer_pair, Hraise. reflexivity.
Qed.

Lemma interactive_silent_test :
  interactive shapeless_client (llm_with "sk-test")
    (test_world, fresh_console ["How are you?"; "bye"]) =
  (Raise (AttributeError "content"),
   (sent (request_of (llm_with "sk-test") "How are you?") test_world,
    Console ["bye"] ["Enter your question: "] EmptyString)).
Proof.
  apply (interactive_silent shapeless_client (llm_with "sk-test") test_world
           (fresh_console ["How are you?"; "bye"]) "How are you?" ["bye"]
           (AttributeError "content")).
  - reflexivity.
  - reflexivity.
Defined.

(** ** The notebook from top to bottom *)

(** X11: a full run, with a credential the constructor accepts, a line to read
    and a client that answers both questions: two requests are sent, the
    example question first and the line typed second, both with the
    credential found at startup; the output is the question and the two
    answers, in this order. *)
Theorem run_all_succeeds (client : request -> outcome)
  (check_api_key : option string -> option exn)
  (dotenv : gmap string string) (w : world) (c : console)
  (key line : string) (rest : list string)
  (obj1 obj2 : gmap string pyval) (v1 v2 : pyval) :
  (environ w ∪ dotenv) !! "OPENAI_API_KEY" = Some key ->
  check_api_key (Some key) = None ->
  stdin c = line :: rest ->
  client (request_of (llm_with key) "What is the capital of France?") =
    Returns obj1 ->
  obj1 !! "content" = Some v1 ->
  client (request_of (llm_with key) line) = Returns obj2 ->
  obj2 !! "content" = Some v2 ->
  run_all client check_api_key dotenv (w, c) =
  (Ok tt,
   (World (environ w ∪ dotenv)
      (outbound w ++
       [ request_of (llm_with key) "What is the capital of France?";
         request_of (llm_with key) line ]),
    Console rest (prompted c ++ ["Enter your question: "])
      (String.append
         (stdout
            (printed (String.append "Answer: " (str v1))
               (printed "Question: What is the capital of France?" c)))
         (String.append (String.append "Answer: " (str v2)) nl)))).
Proof.
  intros Hkey Hcheck Hline Hresp1 Hcontent1 Hresp2 Hcontent2.
  unfold run_all, io_bind, run. cbn [fst snd].
  rewrite setup_spec, Hkey, Hcheck.
  unfold example_usage, io_bind, run. cbn [fst snd].
  rewrite get_answer_spec, Hresp1, Hcontent1.
  unfold print at 1 2. cbn [fst snd].
  unfold interactive, io_bind, input, run. cbn [fst snd stdin]. rewrite Hline.
  cbn [fst snd]. rewrite get_answer_spec, Hresp2, Hcontent2.
  unfold print, sent, printed. cbn [fst snd environ outbound stdin prompted stdout].
  now rewrite <- app_assoc.
Qed.

Lemma run_all_recorded :
  run_all recorded_client check_non_empty ∅
    (test_world, fresh_console ["How are you?"]) =
  (Ok tt,
   (World {[ "OPENAI_API_KEY" := "sk-test" ]}
      [ request_of (llm_with "sk-test") "What is the capital of France?";
        request_of (llm_with "sk-test") "How are you?" ],
    Console [] ["Enter your question: "]
      (String.concat nl
         [ "Question: What is the capital of France?";
           "Answer: The capital of France is Paris.";
           "Answer: I'm just a program, so I don't have feelings, but I'm here and ready to help you! How can I assist you today?";
           EmptyString ]))).
Proof.
  etransitivity.
  { apply (run_all_succeeds recorded_client check_non_empty ∅ test_world
           (fresh_console ["How are you?"]) "sk-test" "How are you?" []
           {[ "content" := PyStr "The capital of France is Paris." ]}
           {[ "content" := PyStr "I'm just a program, so I don't have feelings, but I'm here and ready to help you! How can I assist you today?" ]}
           (PyStr "The capital of France is Paris.")
           (PyStr "I'm just a program, so I don't have feelings, but I'm here and ready to help you! How can I assist you today?")).
    - reflexivity.
    - reflexivity.
    - reflexivity.
    - reflexivity.
    - reflexivity.
    - reflexivity.
    - reflexivity. }
  vm_compute. reflexivity.
Defined.

(** X12: a full run stops at the first exception: when the example question
    fails, the interactive cell is not reached; the user is not prompted,
    no line is read, nothing is printed, and only one request was sent. *)
Theorem run_all_stops_at_example (client : request -> outcome)
  (check_api_key : option string -> option exn)
  (dotenv : gmap string string) (w : world) (c : console)
  (key : string) (e : exn) :
  (environ w ∪ dotenv) !! "OPENAI_API_KEY" = Some key ->
  check_api_key (Some key) = None ->
  fst (get_answer client (llm_with key) "What is the capital of France?"
         (World (environ w ∪ dotenv) (outbound w))) = Raise e ->
  run_all client check_api_key dotenv (w, c) =
  (Raise e,
   (World (environ w ∪ dotenv)
      (outbound w ++
       [ request_of (llm_with key) "What is the capital of France?" ]),
    c)).
Proof.
  intros Hkey Hcheck Hraise.
  unfold run_all, io_bind, run. cbn [fst snd].
  rewrite setup_spec, Hkey, Hcheck.
  unfold example_usage, io_bind, run. cbn [fst snd].
  rewrite get_answer_pair, Hraise. reflexivity.
Qed.

Lemma run_all_stops_at_example_test :
  run_all failing_client check_non_empty ∅
    (test_world, fresh_console ["How are you?"]) =
  (Raise TransportError,
   (World {[ "OPENAI_API_KEY" := "sk-test" ]}
      [ request_of (llm_with "sk-test") "What is the capital of France?" ],
    fresh_console ["How are you?"])).
Proof.
  etransitivity.
  { apply (run_all_stops_at_example failing_client check_non_empty ∅
             test_world (fresh_console ["How are you?"]) "sk-test"
             TransportError).
    - reflexivity.
    - reflexivity.
    - reflexivity. }
  vm_compute. reflexivity.
Defined.

(** X13: a full run without a credential stops in the first cell: the console is
    untouched and no request is sent. *)
Theorem run_all_without_credential (client : request -> outcome)
  (check_api_key : option string -> option exn)
  (dotenv : gmap string string) (w : world) (c : console) :
  (environ w ∪ dotenv) !! "OPENAI_API_KEY" = None ->
  run_all client check_api_key dotenv (w, c) =
  (Raise (TypeError "str expected, not NoneType"),
   (World (environ w ∪ dotenv) (outbound w), c)).
Proof.
  intros Hkey. unfold run_all, io_bind, run. cbn [fst snd].
  now rewrite setup_spec, Hkey.
Qed.

Lemma run_all_without_credential_test :
  run_all paris_client check_is_set {[ "OPENAI_ORG" := "acme" ]}
    (empty_world, fresh_console ["How are you?"]) =
  (Raise (TypeError "str expected, not NoneType"),
   (World {[ "OPENAI_ORG" := "acme" ]} [], fresh_console ["How are you?"])).
Proof.
  etransitivity.
  { apply (run_all_without_credential paris_client check_is_set
             {[ "OPENAI_ORG" := "acme" ]} empty_world
             (fresh_console ["How are you?"])).
    reflexivity. }
  vm_compute. reflexivity.
Defined.
